(** * ndb query descriptors: a shallow embedding of [google/cloud/ndb/query.py]

    The module is dynamically typed Python.  Values are modelled by a small
    universe [Value] with the run-time classes the module tests with
    [isinstance]; raising is modelled by the [result] monad; the Python
    dicts [bindings] and [used] are finite maps, and the in-place update of
    [used] is explicit state passing. *)

From Stdlib Require Import ZArith.
From stdpp Require Import base decidable countable strings list gmap.

Local Open Scope Z_scope.
Local Open Scope string_scope.

(** ** Exceptions and the result monad *)

(** The exception classes raised in [query.py].  [InvalidArgument] is the
    error of the model registry, under the name the specification gives it
    (the registry itself lives in [model.py]). *)
Inductive Exception :=
| TypeError
| ValueError
| NotImplementedError
| BadArgumentError
| InvalidArgument.

Global Instance Exception_eq_dec : EqDecision Exception.
Proof. solve_decision. Defined.

Inductive result (A : Type) :=
| Ok (a : A)
| Raise (e : Exception).
Arguments Ok {A} a.
Arguments Raise {A} e.

Global Instance result_ret : MRet result := fun _ a => Ok a.
Global Instance result_bind : MBind result := fun _ _ f m =>
  match m with
  | Ok a => f a
  | Raise e => Raise e
  end.

Definition is_Ok {A} (r : result A) : Prop := ∃ a, r = Ok a.

(** The specification's error taxonomy: it files both [TypeError] and
    [ValueError] (and the registry's error) under "InvalidArgument", and
    [NotImplementedError] under "NotSupportedError". *)
Definition is_invalid_argument (e : Exception) : bool :=
  match e with
  | TypeError | ValueError | InvalidArgument => true
  | _ => false
  end.

Definition is_not_supported (e : Exception) : bool :=
  match e with
  | NotImplementedError => true
  | _ => false
  end.

(** ** Classes and values *)

(** The [Node] class and its subclasses, all declared in [query.py]. *)
Inductive NodeClass :=
| Node
| FalseNode
| ParameterNode
| FilterNode
| PostFilterNode
| ConjunctionNode
| DisjunctionNode.

(** [AND] and [OR] are aliases. *)
Definition AND : NodeClass := ConjunctionNode.
Definition OR : NodeClass := DisjunctionNode.

Inductive Class :=
| c_object
| c_NoneType
| c_int
| c_bool
| c_str
| c_bytes
| c_list
| c_tuple
| c_Key
| c_Property
| c_ParameterizedThing
| c_Parameter
| c_ParameterizedFunction
| c_node (n : NodeClass).

Global Instance NodeClass_eq_dec : EqDecision NodeClass.
Proof. solve_decision. Defined.
Global Instance Class_eq_dec : EqDecision Class.
Proof. solve_decision. Defined.

(** The direct base class ([bool] derives from [int]; every node class
    other than [Node] derives from [Node]). *)
Definition base (c : Class) : option Class :=
  match c with
  | c_object => None
  | c_bool => Some c_int
  | c_Parameter | c_ParameterizedFunction => Some c_ParameterizedThing
  | c_node Node => Some c_object
  | c_node _ => Some (c_node Node)
  | _ => Some c_object
  end.

Fixpoint mro (fuel : nat) (c : Class) : list Class :=
  c :: match fuel with
       | O => []
       | S fuel' => match base c with
                    | Some b => mro fuel' b
                    | None => []
                    end
       end.

(** The hierarchy is three levels deep at most. *)
Definition issubclass (c d : Class) : bool := bool_decide (d ∈ mro 3 c).

(** Instances of [int], [bool], [str] and [bytes]. *)
Inductive Prim :=
| PInt (z : Z)
| PBool (b : bool)
| PStr (s : string)
| PBytes (s : string).

Global Instance Prim_eq_dec : EqDecision Prim.
Proof. solve_decision. Defined.

(** [model.Key] is declared outside this module; a key is represented by
    what the three accessors called here return: [id()], [app()] and
    [namespace()]. *)
Record Key := mkKey {
  Key_id : option Prim;
  Key_app : string;
  Key_namespace : option string
}.

(** [model.Property]: only the [_name] attribute is read here. *)
Record Property := mkProperty { Property__name : string }.

Record ParameterObj := mkParameter { _key : Prim }.

(** [ParameterizedFunction]: only the [func] attribute is read here. *)
Record ParameterizedFunctionObj := mkParameterizedFunction { func : string }.

#[warnings="-register-all"] Inductive Value :=
| VNone
| VPrim (p : Prim)
| VList (items : list Value)
| VTuple (items : list Value)
| VKey (k : Key)
| VProperty (p : Property)
| VParameter (p : ParameterObj)
| VParameterizedFunction (f : ParameterizedFunctionObj)
| VNode (cls : NodeClass) (oid : nat)
| VObject (oid : nat).

Abbreviation VTrue := (VPrim (PBool true)).
Abbreviation VInt z := (VPrim (PInt z)).
Abbreviation VStr s := (VPrim (PStr s)).

Definition type_of (v : Value) : Class :=
  match v with
  | VNone => c_NoneType
  | VPrim (PInt _) => c_int
  | VPrim (PBool _) => c_bool
  | VPrim (PStr _) => c_str
  | VPrim (PBytes _) => c_bytes
  | VList _ => c_list
  | VTuple _ => c_tuple
  | VKey _ => c_Key
  | VProperty _ => c_Property
  | VParameter _ => c_Parameter
  | VParameterizedFunction _ => c_ParameterizedFunction
  | VNode cls _ => c_node cls
  | VObject _ => c_object
  end.

(** [isinstance(v, (c1, ..., cn))]. *)
Definition isinstance (v : Value) (cs : list Class) : bool :=
  existsb (issubclass (type_of v)) cs.

(** [v is None]. *)
Definition is_None (v : Value) : bool :=
  match v with
  | VNone => true
  | _ => false
  end.

(** Truth value testing. *)
Definition truthy_prim (p : Prim) : bool :=
  match p with
  | PInt z => negb (Z.eqb z 0)
  | PBool b => b
  | PStr s | PBytes s => negb (String.eqb s "")
  end.

Definition truthy (v : Value) : bool :=
  match v with
  | VNone => false
  | VPrim p => truthy_prim p
  | VList items | VTuple items => negb (bool_decide (items = []))
  | _ => true
  end.

(** [a == b] on instances of [int], [bool], [str] and [bytes]: numbers
    compare by value ([True == 1]); [str] and [bytes] never compare equal
    to each other or to a number. *)
Definition int_of_bool (b : bool) : Z := if b then 1 else 0.

Definition prim_eq (a b : Prim) : bool :=
  match a, b with
  | PInt x, PInt y => Z.eqb x y
  | PInt x, PBool y => Z.eqb x (int_of_bool y)
  | PBool x, PInt y => Z.eqb (int_of_bool x) y
  | PBool x, PBool y => Z.eqb (int_of_bool x) (int_of_bool y)
  | PStr x, PStr y => String.eqb x y
  | PBytes x, PBytes y => String.eqb x y
  | _, _ => false
  end.

(** ** Dicts keyed by [int], [str] or [bytes] *)

(** A dict slot: keys that are equal (and so hash alike) share one. *)
Inductive DKey :=
| DInt (z : Z)
| DStr (s : string)
| DBytes (s : string).

Global Instance DKey_eq_dec : EqDecision DKey.
Proof. solve_decision. Defined.

Global Instance DKey_countable : Countable DKey.
Proof.
  refine (inj_countable'
    (fun k => match k with
              | DInt z => inl z
              | DStr s => inr (inl s)
              | DBytes s => inr (inr s)
              end)
    (fun x => match x with
              | inl z => DInt z
              | inr (inl s) => DStr s
              | inr (inr s) => DBytes s
              end) _).
  by intros [].
Defined.

Definition slot (k : Prim) : DKey :=
  match k with
  | PInt z => DInt z
  | PBool b => DInt (int_of_bool b)
  | PStr s => DStr s
  | PBytes s => DBytes s
  end.

Abbreviation Dict := (gmap DKey Value).

(** [key in d], [d[key]] (for a present key) and [d[key] = v]. *)
Definition dict_contains (d : Dict) (key : Prim) : bool :=
  bool_decide (is_Some (d !! slot key)).

Definition dict_setitem (d : Dict) (key : Prim) (v : Value) : Dict :=
  <[slot key := v]> d.

(** ** Parameterization *)

(** Rich comparison methods return a boolean or [NotImplemented]. *)
Inductive RichCmp :=
| NotImplemented
| Cmp (b : bool).

(** [ParameterizedThing.__eq__]: raises for every operand. *)
Definition ParameterizedThing___eq__ (self other : Value) : result RichCmp :=
  Raise NotImplementedError.

(** [Parameter.__init__]: the key is stored when it is an [int], a [str]
    or a [bytes]. *)
Definition Parameter___init__ (key : Value) : result ParameterObj :=
  if negb (isinstance key [c_int; c_str; c_bytes]) then Raise TypeError
  else match key with
       | VPrim k => Ok {| _key := k |}
       | _ => Raise TypeError
       end.

(** [Parameter.__eq__]. *)
Definition Parameter___eq__ (self : ParameterObj) (other : Value) : RichCmp :=
  if negb (isinstance other [c_Parameter]) then NotImplemented
  else match other with
       | VParameter o => Cmp (prim_eq (_key self) (_key o))
       | _ => NotImplemented
       end.

(** The [key] property. *)
Definition Parameter_key (self : ParameterObj) : Value := VPrim (_key self).

(** The classes [Key] and [Property] are declared in [model.py], and their
    [__eq__] methods with them.  What [other.__eq__(self)] does, for an
    instance [other] of one of the two and a parameter [self], is a
    parameter of this development: it raises, answers [NotImplemented], or
    answers a value, of which [Cmp] keeps the truth value. *)
Class ModelEq := model___eq__ : Value → ParameterObj → result RichCmp.

(** The reflected [other.__eq__(self)] for a parameter [self]: it is the
    inherited [ParameterizedThing.__eq__] for a [ParameterizedFunction],
    the method of [model.py] for a [Key] or a [Property], and answers
    [NotImplemented] for every other operand: [None], the instances of
    [int], [bool], [str], [bytes], [list] and [tuple], of [object] itself,
    and of the node classes, which declare no [__eq__]. *)
Definition reflected___eq__ {M : ModelEq} (other : Value) (self : ParameterObj)
  : result RichCmp :=
  if isinstance other [c_ParameterizedThing] then
    ParameterizedThing___eq__ other (VParameter self)
  else if isinstance other [c_Key; c_Property] then model___eq__ other self
  else Ok NotImplemented.

(** The truth value of the expression [self == other] for a parameter
    [self]: first [Parameter.__eq__(self, other)]; when that is
    [NotImplemented] the reflected [other.__eq__(self)] is tried; when
    that is [NotImplemented] too the comparison falls back on identity,
    and [other] is not [self]. *)
Definition Parameter_op_eq {M : ModelEq} (self : ParameterObj) (other : Value)
  : result bool :=
  match Parameter___eq__ self other with
  | Cmp b => Ok b
  | NotImplemented =>
      r ← reflected___eq__ other self;
      match r with
      | Cmp b => Ok b
      | NotImplemented => Ok false
      end
  end.

(** [ParameterizedThing.__ne__], inherited by [Parameter]:
    [not self == other]. *)
Definition ParameterizedThing___ne__ {M : ModelEq} (self : ParameterObj)
    (other : Value) : result bool :=
  b ← Parameter_op_eq self other; Ok (negb b).

(** [Parameter.resolve(bindings, used)].  The result is paired with the
    [used] dict as the call leaves it. *)
Definition Parameter_resolve (self : ParameterObj) (bindings used : Dict)
  : result Value * Dict :=
  let key := _key self in
  if negb (dict_contains bindings key) then (Raise BadArgumentError, used)
  else match bindings !! slot key with
       | Some value => (Ok value, dict_setitem used key VTrue)
       | None => (Raise BadArgumentError, used)
       end.

(** ** The filter expression tree *)

(** Each node class declares its own [__init__], taking any positional
    and keyword arguments, with the same body. *)
Abbreviation Args := (list Value).
Abbreviation Kwargs := (list (string * Value)).

Definition Node___init__ (args : Args) (kwargs : Kwargs) : result unit :=
  Raise NotImplementedError.
Definition FalseNode___init__ (args : Args) (kwargs : Kwargs) : result unit :=
  Raise NotImplementedError.
Definition ParameterNode___init__ (args : Args) (kwargs : Kwargs) : result unit :=
  Raise NotImplementedError.
Definition FilterNode___init__ (args : Args) (kwargs : Kwargs) : result unit :=
  Raise NotImplementedError.
Definition PostFilterNode___init__ (args : Args) (kwargs : Kwargs) : result unit :=
  Raise NotImplementedError.
Definition ConjunctionNode___init__ (args : Args) (kwargs : Kwargs) : result unit :=
  Raise NotImplementedError.
Definition DisjunctionNode___init__ (args : Args) (kwargs : Kwargs) : result unit :=
  Raise NotImplementedError.

Definition node___init__ (cls : NodeClass) : Args → Kwargs → result unit :=
  match cls with
  | Node => Node___init__
  | FalseNode => FalseNode___init__
  | ParameterNode => ParameterNode___init__
  | FilterNode => FilterNode___init__
  | PostFilterNode => PostFilterNode___init__
  | ConjunctionNode => ConjunctionNode___init__
  | DisjunctionNode => DisjunctionNode___init__
  end.

(** Calling the class [cls] with [args] and [kwargs]: a fresh instance (of identity [oid])
    is handed to [cls.__init__], and is the value of the call when that
    returns. *)
Definition node_call (cls : NodeClass) (oid : nat) (args : Args) (kwargs : Kwargs)
  : result Value :=
  _ ← node___init__ cls args kwargs; Ok (VNode cls oid).

(** ** The model registry *)

(** Modelled from the spec: [model.Model._kind_map] and the model classes'
    [_check_properties] are declared in [model.py], outside this module.
    The specification gives the registry as [properties_for(kind)], a set
    of property names, and [is_indexable(kind, property)], a boolean, both
    used for validation only: the properties of a projection or a grouping
    must exist on the kind and be marked indexable, and a bad projection
    or grouping fails with [InvalidArgument]. *)
Record ModelClass := mkModelClass {
  properties_for : gset string;
  is_indexable : string → bool
}.

Definition Model__check_properties (modelclass : ModelClass) (fixed : list string)
  : result unit :=
  if forallb (fun name => bool_decide (name ∈ properties_for modelclass)
                          && is_indexable modelclass name) fixed
  then Ok ()
  else Raise InvalidArgument.

(** ** The query descriptor *)

(** The keyword-only arguments of [Query.__init__]; [kind], [app] and
    [namespace] are optional strings, the others are tested at run time. *)
Record QueryArgs := mkQueryArgs {
  kind : option string;
  ancestor : Value;
  filters : Value;
  orders : Value;
  app : option string;
  namespace : option string;
  default_options : Value;
  projection : Value;
  group_by : Value
}.

(** Every argument defaults to [None]. *)
Definition defaults : QueryArgs :=
  mkQueryArgs None VNone VNone VNone None None VNone VNone VNone.

Record QueryObj := mkQuery {
  _kind : option string;
  _ancestor : Value;
  _filters : Value;
  _orders : Value;
  _app : option string;
  _namespace : option string;
  _default_options : Value;
  _projection : Value;
  _group_by : Value
}.

(** [not ancestor.id()] tests the truth value of what [id()] returns. *)
Definition truthy_id (id : option Prim) : bool :=
  match id with
  | None => false
  | Some p => truthy_prim p
  end.

Definition Query__validate_ancestor (ancestor : Value) (app namespace : option string)
  : result Value :=
  if is_None ancestor then Ok ancestor
  else if isinstance ancestor [c_ParameterizedThing] then
    match ancestor with
    | VParameterizedFunction f =>
        if negb (String.eqb (func f) "key") then Raise TypeError else Ok ancestor
    | _ => Ok ancestor
    end
  else
    match ancestor with
    | VKey k =>
        if negb (truthy_id (Key_id k)) then Raise ValueError
        else if match app with
                | Some a => negb (String.eqb a (Key_app k))
                | None => false
                end then Raise TypeError
        else if match namespace with
                | Some n => negb (bool_decide (Some n = Key_namespace k))
                | None => false
                end then Raise TypeError
        else Ok ancestor
    | _ => Raise TypeError
    end.

Definition Query__validate_filters (filters : Value) : result Value :=
  if negb (is_None filters) && negb (isinstance filters [c_node Node])
  then Raise TypeError
  else Ok filters.

Definition Query__validate_orders (orders : Value) : result Value :=
  if negb (is_None orders) then Raise NotImplementedError else Ok orders.

Definition Query__validate_default_options (default_options : Value) : result Value :=
  if negb (is_None default_options) then Raise NotImplementedError
  else Ok default_options.

Definition Query__validate_namespace (namespace : option string) (ancestor : Value)
  : option string :=
  match namespace, ancestor with
  | None, VKey k => Key_namespace k
  | _, _ => namespace
  end.

(** The elements of a list or a tuple. *)
Definition items_of (v : Value) : list Value :=
  match v with
  | VList items | VTuple items => items
  | _ => []
  end.

(** The loop of [_to_property_names], with [fixed] the names collected so
    far. *)
Fixpoint to_property_names_loop (properties : list Value) (fixed : list string)
  : result (list string) :=
  match properties with
  | [] => Ok fixed
  | prop :: rest =>
      match prop with
      | VPrim (PStr s) => to_property_names_loop rest (fixed ++ [s])
      | VProperty p => to_property_names_loop rest (fixed ++ [Property__name p])
      | _ => Raise TypeError
      end
  end.

Definition Query__to_property_names (properties : Value) : result (list string) :=
  let properties :=
    if negb (isinstance properties [c_list; c_tuple]) then [properties]
    else items_of properties in
  to_property_names_loop properties [].

Section Registry.

(** The table [model.Model._kind_map], from kind names to model classes. *)
Variable _kind_map : gmap string ModelClass.

Definition Query__check_properties (fixed : list string) (kind : option string)
  : result unit :=
  match kind ≫= (_kind_map !!.) with
  | Some modelclass => Model__check_properties modelclass fixed
  | None => Ok ()
  end.

Definition Query__validate_projection (projection : Value) (kind : option string)
  : result Value :=
  if is_None projection then Ok VNone
  else if negb (truthy projection) then Raise TypeError
  else if negb (isinstance projection [c_tuple; c_list]) then Raise TypeError
  else
    names ← Query__to_property_names projection;
    _ ← Query__check_properties names kind;
    Ok (VTuple (items_of projection)).

Definition Query__validate_group_by (group_by : Value) (kind : option string)
  : result Value :=
  if is_None group_by then Ok VNone
  else if negb (truthy group_by) then Raise TypeError
  else if negb (isinstance group_by [c_tuple; c_list]) then Raise TypeError
  else
    names ← Query__to_property_names group_by;
    _ ← Query__check_properties names kind;
    Ok (VTuple (items_of group_by)).

Definition Query___init__ (a : QueryArgs) : result QueryObj :=
  let kind_ := kind a in
  ancestor_ ← Query__validate_ancestor (ancestor a) (app a) (namespace a);
  filters_ ← Query__validate_filters (filters a);
  orders_ ← Query__validate_orders (orders a);
  let app_ := app a in
  let namespace_ := Query__validate_namespace (namespace a) (ancestor a) in
  default_options_ ← Query__validate_default_options (default_options a);
  projection_ ← Query__validate_projection (projection a) kind_;
  group_by_ ← Query__validate_group_by (group_by a) kind_;
  Ok {| _kind := kind_; _ancestor := ancestor_; _filters := filters_;
        _orders := orders_; _app := app_; _namespace := namespace_;
        _default_options := default_options_; _projection := projection_;
        _group_by := group_by_ |}.

End Registry.

(** ** Notions used in the statements *)

(** The name a projected property stands for: a [str] is a name, a
    property descriptor stands for its [_name]; nothing else is a
    property. *)
Definition property_name (prop : Value) : option string :=
  match prop with
  | VPrim (PStr s) => Some s
  | VProperty p => Some (Property__name p)
  | _ => None
  end.

(** The same call with another [filters] argument, and the same query with
    other filters. *)
Definition with_filters (a : QueryArgs) (f : Value) : QueryArgs :=
  {| kind := kind a; ancestor := ancestor a; filters := f; orders := orders a;
     app := app a; namespace := namespace a;
     default_options := default_options a; projection := projection a;
     group_by := group_by a |}.

Definition with__filters (q : QueryObj) (f : Value) : QueryObj :=
  {| _kind := _kind q; _ancestor := _ancestor q; _filters := f;
     _orders := _orders q; _app := _app q; _namespace := _namespace q;
     _default_options := _default_options q; _projection := _projection q;
     _group_by := _group_by q |}.

(** Every name is in the registered property set of the kind, when the
    registry knows the kind. *)
Definition registered (km : gmap string ModelClass) (kind : option string)
    (names : list string) : Prop :=
  ∀ modelclass, kind ≫= (km !!.) = Some modelclass →
    ∀ name, name ∈ names → name ∈ properties_for modelclass.

(** Every name is marked indexable on the kind, when the registry knows
    the kind. *)
Definition indexable (km : gmap string ModelClass) (kind : option string)
    (names : list string) : Prop :=
  ∀ modelclass, kind ≫= (km !!.) = Some modelclass →
    ∀ name, name ∈ names → is_indexable modelclass name = true.

(** The arguments that describe a constructed query: each field, given
    back as the argument it came from. *)
Definition as_args (q : QueryObj) : QueryArgs :=
  {| kind := _kind q; ancestor := _ancestor q; filters := _filters q;
     orders := _orders q; app := _app q; namespace := _namespace q;
     default_options := _default_options q; projection := _projection q;
     group_by := _group_by q |}.

(** ** Sample data *)

(** A registry that knows the kind [Pet], with three properties, of which
    [notes] is not indexable. *)
Definition pet_model : ModelClass :=
  mkModelClass {[ "species"; "name"; "notes" ]}
               (λ name, negb (String.eqb name "notes")).

Definition pet_registry : gmap string ModelClass := {[ "Pet" := pet_model ]}.

(** Model classes whose [__eq__] answers [NotImplemented] to a parameter. *)
Definition plain_model_eq : ModelEq := λ _ _, Ok NotImplemented.

Definition pet_key : Key := mkKey (Some (PInt 3)) "app" (Some "ns").
Definition incomplete_key : Key := mkKey None "app" (Some "ns").

Definition pet_args : QueryArgs :=
  {| kind := Some "Pet"; ancestor := VKey pet_key;
     filters := VNode FilterNode 0; orders := VNone; app := Some "app";
     namespace := None; default_options := VNone;
     projection := VList [VStr "species"; VProperty (mkProperty "name")];
     group_by := VTuple [VStr "name"] |}.

Definition pet_query : QueryObj :=
  {| _kind := Some "Pet"; _ancestor := VKey pet_key;
     _filters := VNode FilterNode 0; _orders := VNone; _app := Some "app";
     _namespace := Some "ns"; _default_options := VNone;
     _projection := VTuple [VStr "species"; VProperty (mkProperty "name")];
     _group_by := VTuple [VStr "name"] |}.

(** The same call with an incomplete ancestor, with another app, with
    filters that are no node, and with orders. *)
Definition incomplete_args : QueryArgs :=
  {| kind := Some "Pet"; ancestor := VKey incomplete_key;
     filters := VNone; orders := VNone; app := None; namespace := None;
     default_options := VNone; projection := VNone; group_by := VNone |}.

Definition mismatch_args : QueryArgs :=
  {| kind := Some "Pet"; ancestor := VKey pet_key;
     filters := VNone; orders := VNone; app := Some "other"; namespace := None;
     default_options := VNone; projection := VNone; group_by := VNone |}.

Definition orders_args : QueryArgs :=
  {| kind := Some "Pet"; ancestor := VKey pet_key;
     filters := VNone; orders := VObject 7; app := None; namespace := None;
     default_options := VNone; projection := VNone; group_by := VNone |}.

(** * Properties *)

(** ** Classes, keys and dicts *)

(** Decides an [isinstance] test on a value whose class is known. *)
Ltac by_class H := vm_compute in H; try discriminate H.

Lemma isinstance_key_types (v : Value) :
  isinstance v [c_int; c_str; c_bytes] = true ↔ ∃ k, v = VPrim k.
Proof.
  split.
  - intros H. destruct v as [|p| | | | | | |[]|]; try by by_class H. eauto.
  - intros [[z|b|s|s] ->]; reflexivity.
Qed.

Lemma isinstance_Parameter (v : Value) :
  isinstance v [c_Parameter] = true ↔ ∃ p, v = VParameter p.
Proof.
  split.
  - intros H. destruct v as [|[]| | | | | | |[]|]; try by by_class H. eauto.
  - intros [p ->]; reflexivity.
Qed.

Lemma isinstance_Key (v : Value) :
  isinstance v [c_Key] = true ↔ ∃ k, v = VKey k.
Proof.
  split.
  - intros H. destruct v as [|[]| | | | | | |[]|]; try by by_class H. eauto.
  - intros [p ->]; reflexivity.
Qed.

Lemma isinstance_Node (v : Value) :
  isinstance v [c_node Node] = true ↔ ∃ cls oid, v = VNode cls oid.
Proof.
  split.
  - intros H. destruct v as [|[]| | | | | | |cls oid|]; try by by_class H. eauto.
  - intros (cls & oid & ->); destruct cls; reflexivity.
Qed.

Lemma int_of_bool_inj b1 b2 : int_of_bool b1 = int_of_bool b2 → b1 = b2.
Proof. by destruct b1, b2. Qed.

(** Equal keys are the keys that share a dict slot. *)
Lemma prim_eq_slot (a b : Prim) : prim_eq a b = true ↔ slot a = slot b.
Proof.
  destruct a, b; simpl; rewrite ?Z.eqb_eq, ?String.eqb_eq;
    split; intros H; congruence.
Qed.

Lemma prim_eq_refl (a : Prim) : prim_eq a a = true.
Proof. by apply prim_eq_slot. Qed.

(** Between two keys of one class, [==] is plain equality. *)
Lemma prim_eq_same_type (a b : Prim) :
  type_of (VPrim a) = type_of (VPrim b) → prim_eq a b = true ↔ a = b.
Proof.
  intros Hty. split; [|intros ->; apply prim_eq_refl].
  rewrite prim_eq_slot.
  destruct a, b; simpl in *; try discriminate; intros [= H]; subst; try done.
  by rewrite (int_of_bool_inj _ _ H).
Qed.

Lemma dict_contains_true (d : Dict) (key : Prim) :
  dict_contains d key = true ↔ slot key ∈ dom d.
Proof. unfold dict_contains. rewrite bool_decide_eq_true. by rewrite elem_of_dom. Qed.

Lemma dict_contains_false (d : Dict) (key : Prim) :
  dict_contains d key = false ↔ d !! slot key = None.
Proof.
  unfold dict_contains. rewrite bool_decide_eq_false.
  by rewrite eq_None_not_Some.
Qed.

(** ** Parameter *)

Lemma Parameter_resolve_unfold (p : ParameterObj) (bindings used : Dict) :
  Parameter_resolve p bindings used =
    match bindings !! slot (_key p) with
    | Some value => (Ok value, <[slot (_key p) := VTrue]> used)
    | None => (Raise BadArgumentError, used)
    end.
Proof.
  unfold Parameter_resolve, dict_setitem.
  destruct (bindings !! slot (_key p)) as [v|] eqn:E.
  - assert (dict_contains bindings (_key p) = true) as ->; [|done].
    apply dict_contains_true, elem_of_dom. by rewrite E.
  - by rewrite (proj2 (dict_contains_false _ _) E).
Qed.

(** C1. [Parameter.resolve(bindings, used)] raises, and then raises
    [BadArgumentError], exactly when the parameter's key is not a key of
    [bindings].  When the key is present the call returns the bound value
    as it is stored, and leaves [used] with [True] under the key and every
    other entry as it was. *)
Theorem C1_resolve_contract (p : ParameterObj) (bindings used : Dict) :
  (fst (Parameter_resolve p bindings used) = Raise BadArgumentError
     ↔ slot (_key p) ∉ dom bindings)
  ∧ (∀ e, fst (Parameter_resolve p bindings used) = Raise e → e = BadArgumentError)
  ∧ (∀ value, bindings !! slot (_key p) = Some value →
       fst (Parameter_resolve p bindings used) = Ok value
       ∧ snd (Parameter_resolve p bindings used) !! slot (_key p) = Some VTrue
       ∧ ∀ k, k ≠ slot (_key p) →
           snd (Parameter_resolve p bindings used) !! k = used !! k).
Proof.
  rewrite Parameter_resolve_unfold, not_elem_of_dom.
  destruct (bindings !! slot (_key p)) as [v|] eqn:E; simpl.
  - split; [split; discriminate|]. split; [discriminate|].
    intros value [= <-]. split; [done|]. split.
    + apply lookup_insert_eq.
    + intros k Hk. by apply lookup_insert_ne.
  - split; [done|]. split; [by intros e [= <-]|]. discriminate.
Qed.

(** The scenario of the specification: [limit] bound to 5. *)
Lemma C1_resolve_contract_witness :
  fst (Parameter_resolve (mkParameter (PStr "limit")) {[DStr "limit" := VInt 5]} ∅)
    = Ok (VInt 5)
  ∧ snd (Parameter_resolve (mkParameter (PStr "limit")) {[DStr "limit" := VInt 5]} ∅)
      !! DStr "limit" = Some VTrue.
Proof.
  destruct (C1_resolve_contract (mkParameter (PStr "limit"))
              {[DStr "limit" := VInt 5]} ∅) as (_ & _ & H).
  destruct (H (VInt 5)) as (H1 & H2 & _); [reflexivity|].
  exact (conj H1 H2).
Defined.

(** C10. A call of [resolve] that raises leaves [used] as it was. *)
Theorem C10_resolve_failure_keeps_used (p : ParameterObj) (bindings used : Dict)
    (e : Exception) :
  fst (Parameter_resolve p bindings used) = Raise e →
  snd (Parameter_resolve p bindings used) = used.
Proof.
  rewrite Parameter_resolve_unfold.
  by destruct (bindings !! slot (_key p)).
Qed.

Lemma C10_resolve_failure_keeps_used_witness :
  snd (Parameter_resolve (mkParameter (PStr "limit")) ∅ {[DInt 1 := VTrue]})
    = {[DInt 1 := VTrue]}.
Proof.
  apply (C10_resolve_failure_keeps_used (mkParameter (PStr "limit")) ∅
           {[DInt 1 := VTrue]} BadArgumentError).
  reflexivity.
Defined.

(** C3. [Parameter(key)] raises [TypeError] (the specification's
    InvalidArgument) exactly when [key] is not an instance of [int], [str]
    or [bytes], and raises nothing else; for an accepted [key] the
    construction succeeds and the [key] property returns [key] itself. *)
Theorem C3_Parameter_key_type (key : Value) :
  (Parameter___init__ key = Raise TypeError
     ↔ isinstance key [c_int; c_str; c_bytes] = false)
  ∧ (∀ e, Parameter___init__ key = Raise e → e = TypeError)
  ∧ (isinstance key [c_int; c_str; c_bytes] = true →
       ∃ p, Parameter___init__ key = Ok p ∧ Parameter_key p = key).
Proof.
  unfold Parameter___init__.
  destruct (isinstance key [c_int; c_str; c_bytes]) eqn:E; simpl.
  - apply isinstance_key_types in E as [k ->].
    split; [split; discriminate|]. split; [discriminate|]. eauto.
  - split; [done|]. split; [by intros e [= <-]|]. discriminate.
Qed.

Lemma C3_Parameter_key_type_witness :
  ∃ p, Parameter___init__ (VStr "xyz") = Ok p ∧ Parameter_key p = VStr "xyz".
Proof.
  destruct (C3_Parameter_key_type (VStr "xyz")) as (_ & _ & H).
  apply H. reflexivity.
Defined.

Section Equality.

Context {M : ModelEq}.

(** C4. For parameters built from valid keys [k1] and [k2], the
    expression [Parameter(k1) == Parameter(k2)] evaluates to [k1 == k2],
    and [!=] to its negation.  So a parameter equals itself, and between
    keys of one class the parameters are equal exactly when the keys are
    the same. *)
Theorem C4_Parameter_equality (k1 k2 : Value) (p1 p2 : ParameterObj) :
  Parameter___init__ k1 = Ok p1 →
  Parameter___init__ k2 = Ok p2 →
  ∃ a b, k1 = VPrim a ∧ k2 = VPrim b
    ∧ Parameter_op_eq p1 (VParameter p2) = Ok (prim_eq a b)
    ∧ ParameterizedThing___ne__ p1 (VParameter p2) = Ok (negb (prim_eq a b))
    ∧ (k1 = k2 → Parameter_op_eq p1 (VParameter p2) = Ok true)
    ∧ (type_of k1 = type_of k2 →
         Parameter_op_eq p1 (VParameter p2) = Ok true ↔ k1 = k2).
Proof.
  unfold Parameter___init__. intros H1 H2.
  destruct (isinstance k1 [c_int; c_str; c_bytes]) eqn:E1; [|discriminate].
  destruct (isinstance k2 [c_int; c_str; c_bytes]) eqn:E2; [|discriminate].
  apply isinstance_key_types in E1 as [a ->].
  apply isinstance_key_types in E2 as [b ->].
  simpl in H1, H2. injection H1 as <-. injection H2 as <-.
  exists a, b.
  assert (Parameter_op_eq {| _key := a |} (VParameter {| _key := b |})
          = Ok (prim_eq a b)) as Heq by reflexivity.
  unfold ParameterizedThing___ne__. rewrite Heq.
  repeat split; try done.
  - intros [= ->]. by rewrite prim_eq_refl.
  - intros [= Hab]. f_equal. by apply prim_eq_same_type.
  - intros [= ->]. by rewrite prim_eq_refl.
Qed.

End Equality.

Lemma C4_Parameter_equality_witness :
  @Parameter_op_eq plain_model_eq (mkParameter (PInt 1))
    (VParameter (mkParameter (PInt 2))) = Ok false
  ∧ @ParameterizedThing___ne__ plain_model_eq (mkParameter (PInt 1))
      (VParameter (mkParameter (PInt 2))) = Ok true.
Proof.
  destruct (@C4_Parameter_equality plain_model_eq (VInt 1) (VInt 2)
              (mkParameter (PInt 1)) (mkParameter (PInt 2)) eq_refl eq_refl)
    as (a & b & Ha & Hb & Heq & Hne & _).
  injection Ha as <-. injection Hb as <-.
  exact (conj Heq Hne).
Defined.

(** ** Query construction *)

Lemma validate_ancestor_Key (k : Key) (app namespace : option string) :
  Query__validate_ancestor (VKey k) app namespace =
    if negb (truthy_id (Key_id k)) then Raise ValueError
    else if match app with
            | Some a => negb (String.eqb a (Key_app k))
            | None => false
            end then Raise TypeError
    else if match namespace with
            | Some n => negb (bool_decide (Some n = Key_namespace k))
            | None => false
            end then Raise TypeError
    else Ok (VKey k).
Proof. reflexivity. Qed.

(** A validated ancestor is the argument itself. *)
Lemma validate_ancestor_Ok (v r : Value) (app namespace : option string) :
  Query__validate_ancestor v app namespace = Ok r → r = v.
Proof.
  unfold Query__validate_ancestor.
  repeat (case_match; try discriminate); congruence.
Qed.

Lemma validate_ancestor_Raise (v : Value) (app namespace : option string) e :
  Query__validate_ancestor v app namespace = Raise e → e = TypeError ∨ e = ValueError.
Proof.
  unfold Query__validate_ancestor.
  repeat (case_match; try discriminate); intros [= <-]; auto.
Qed.

Lemma validate_filters_spec (f : Value) :
  Query__validate_filters f =
    if is_None f || isinstance f [c_node Node] then Ok f else Raise TypeError.
Proof.
  unfold Query__validate_filters.
  by destruct (is_None f), (isinstance f [c_node Node]).
Qed.

Lemma is_None_true (v : Value) : is_None v = true ↔ v = VNone.
Proof. destruct v; simpl; split; congruence. Qed.

Lemma is_None_false (v : Value) : is_None v = false ↔ v ≠ VNone.
Proof. destruct v; simpl; split; congruence. Qed.

Section Construction.

Variable km : gmap string ModelClass.

(** A successful construction went through every validator, in the order
    of the assignments of [__init__]. *)
Lemma Query___init___Ok (a : QueryArgs) (q : QueryObj) :
  Query___init__ km a = Ok q ↔
    Query__validate_ancestor (ancestor a) (app a) (namespace a) = Ok (_ancestor q)
    ∧ Query__validate_filters (filters a) = Ok (_filters q)
    ∧ Query__validate_orders (orders a) = Ok (_orders q)
    ∧ Query__validate_default_options (default_options a) = Ok (_default_options q)
    ∧ Query__validate_projection km (projection a) (kind a) = Ok (_projection q)
    ∧ Query__validate_group_by km (group_by a) (kind a) = Ok (_group_by q)
    ∧ _kind q = kind a
    ∧ _app q = app a
    ∧ _namespace q = Query__validate_namespace (namespace a) (ancestor a).
Proof.
  unfold Query___init__. split.
  - destruct (Query__validate_ancestor _ _ _); [|discriminate].
    destruct (Query__validate_filters _); [|discriminate].
    destruct (Query__validate_orders _); [|discriminate].
    destruct (Query__validate_default_options _); [|discriminate].
    destruct (Query__validate_projection _ _ _); [|discriminate].
    destruct (Query__validate_group_by _ _ _); [|discriminate].
    by intros [= <-].
  - intros (-> & -> & -> & -> & -> & -> & Hk & Ha & Hn). simpl.
    destruct q; simpl in *. by subst.
Qed.

(** The first validator that raises decides the exception of the
    construction. *)
Lemma Query___init___ancestor_Raise (a : QueryArgs) (e : Exception) :
  Query__validate_ancestor (ancestor a) (app a) (namespace a) = Raise e →
  Query___init__ km a = Raise e.
Proof. unfold Query___init__. by intros ->. Qed.

Lemma Query___init___filters_Raise (a : QueryArgs) (v : Value) (e : Exception) :
  Query__validate_ancestor (ancestor a) (app a) (namespace a) = Ok v →
  Query__validate_filters (filters a) = Raise e →
  Query___init__ km a = Raise e.
Proof. unfold Query___init__. by intros -> ->. Qed.

Lemma Query___init___total (a : QueryArgs) :
  (∃ q, Query___init__ km a = Ok q) ∨ (∃ e, Query___init__ km a = Raise e).
Proof. destruct (Query___init__ km a); eauto. Qed.

(** C2. A constructed [Query] whose ancestor is a concrete key has a
    complete ancestor (its [id()] is there, and true) whose app and
    namespace are the [app] and [namespace] arguments when these are
    given.  An incomplete ancestor key makes the construction raise
    [ValueError]; a key whose app or namespace differs from the argument
    given makes it raise an InvalidArgument error, which is [TypeError]
    when the key is complete. *)
Theorem C2_ancestor_key (a : QueryArgs) (k : Key) :
  ancestor a = VKey k →
  (∀ q, Query___init__ km a = Ok q →
     Key_id k ≠ None ∧ truthy_id (Key_id k) = true
     ∧ (∀ x, app a = Some x → x = Key_app k)
     ∧ (∀ n, namespace a = Some n → Key_namespace k = Some n))
  ∧ (Key_id k = None → Query___init__ km a = Raise ValueError)
  ∧ (truthy_id (Key_id k) = false → Query___init__ km a = Raise ValueError)
  ∧ ((∃ x, app a = Some x ∧ x ≠ Key_app k)
     ∨ (∃ n, namespace a = Some n ∧ Key_namespace k ≠ Some n) →
     ∃ e, Query___init__ km a = Raise e ∧ is_invalid_argument e = true
          ∧ (truthy_id (Key_id k) = true → e = TypeError)).
Proof.
  intros Hanc.
  assert (truthy_id (Key_id k) = false → Query___init__ km a = Raise ValueError)
    as Hfalsy.
  { intros Hid. apply Query___init___ancestor_Raise.
    by rewrite Hanc, validate_ancestor_Key, Hid. }
  split; [|split; [|split]]; [| |done|].
  - intros q (Hv & _)%Query___init___Ok.
    rewrite Hanc, validate_ancestor_Key in Hv.
    destruct (truthy_id (Key_id k)) eqn:Hid; [|discriminate]. simpl in Hv.
    split; [by intros Hn; rewrite Hn in Hid|]. split; [done|].
    destruct (app a) as [x|].
    + destruct (String.eqb x (Key_app k)) eqn:Hx; [|discriminate].
      apply String.eqb_eq in Hx. simpl in Hv.
      split; [by intros ? [= <-]|].
      destruct (namespace a) as [n|]; [|done].
      intros ? [= <-]. by case_bool_decide.
    + split; [done|].
      destruct (namespace a) as [n|]; [|done].
      intros ? [= <-]. by case_bool_decide.
  - intros Hn. apply Hfalsy. by rewrite Hn.
  - intros Hmis.
    destruct (truthy_id (Key_id k)) eqn:Hid.
    + exists TypeError. split; [|done].
      apply Query___init___ancestor_Raise.
      rewrite Hanc, validate_ancestor_Key, Hid. simpl.
      destruct Hmis as [(x & -> & Hx)|(n & -> & Hn)].
      * apply String.eqb_neq in Hx. by rewrite Hx.
      * destruct (app a) as [x|]; [destruct (String.eqb x (Key_app k))|];
          simpl; try done; by case_bool_decide.
    + exists ValueError. by rewrite Hfalsy.
Qed.

(** C5. In a constructed [Query] whose ancestor is a concrete key and
    whose [namespace] argument is [None], the namespace is the ancestor
    key's; a [namespace] argument that is given is the namespace of the
    query. *)
Theorem C5_namespace_default (a : QueryArgs) (q : QueryObj) :
  Query___init__ km a = Ok q →
  (∀ k, ancestor a = VKey k → namespace a = None →
     _namespace q = Key_namespace k)
  ∧ (∀ n, namespace a = Some n → _namespace q = Some n).
Proof.
  intros (_ & _ & _ & _ & _ & _ & _ & _ & ->)%Query___init___Ok. split.
  - by intros k -> ->.
  - by intros n ->.
Qed.


(** C6. [Query] accepts a [filters] argument exactly when it is [None] or
    an instance of [Node]: the validator returns such a value as it is and
    raises [TypeError] on any other; a constructed query was given such a
    value and stores it unchanged; any other value makes the construction
    raise an InvalidArgument error ([TypeError], unless the ancestor was
    rejected first with its own [TypeError] or [ValueError]); and a
    construction that succeeds still succeeds, storing the new filters,
    when [filters] is replaced by [None] or any [Node]. *)
Theorem C6_filters (a : QueryArgs) :
  (∀ f, Query__validate_filters f =
          if is_None f || isinstance f [c_node Node] then Ok f else Raise TypeError)
  ∧ (∀ q, Query___init__ km a = Ok q →
       (filters a = VNone ∨ isinstance (filters a) [c_node Node] = true)
       ∧ _filters q = filters a)
  ∧ (filters a ≠ VNone → isinstance (filters a) [c_node Node] = false →
       ∃ e, Query___init__ km a = Raise e ∧ is_invalid_argument e = true
            ∧ (is_Ok (Query__validate_ancestor (ancestor a) (app a) (namespace a)) →
               e = TypeError))
  ∧ (∀ q f, Query___init__ km a = Ok q →
       f = VNone ∨ isinstance f [c_node Node] = true →
       Query___init__ km (with_filters a f) = Ok (with__filters q f)).
Proof.
  split; [apply validate_filters_spec|]. split; [|split].
  - intros q (_ & Hf & _)%Query___init___Ok.
    rewrite validate_filters_spec in Hf.
    destruct (is_None (filters a)) eqn:Hn,
      (isinstance (filters a) [c_node Node]) eqn:Hi;
      try discriminate; injection Hf as <-; auto.
    apply is_None_true in Hn. auto.
  - intros Hn%is_None_false Hi.
    destruct (Query__validate_ancestor (ancestor a) (app a) (namespace a))
      as [v|e] eqn:Hv.
    + exists TypeError. split; [|done].
      apply (Query___init___filters_Raise a v); [done|].
      by rewrite validate_filters_spec, Hn, Hi.
    + exists e. split; [by apply Query___init___ancestor_Raise|]. split.
      * by destruct (validate_ancestor_Raise _ _ _ _ Hv) as [-> | ->].
      * intros [? [=]].
  - intros q f Hq Hf. apply Query___init___Ok in Hq.
    apply Query___init___Ok. simpl.
    destruct Hq as (? & ? & ? & ? & ? & ? & ? & ? & ?).
    repeat split; try done.
    rewrite validate_filters_spec.
    by destruct Hf as [-> | ->]; [|rewrite orb_true_r].
Qed.

(** C7. [orders] and [default_options] are accepted only as [None]: each
    validator returns [None] for [None] and raises [NotImplementedError]
    (the specification's NotSupportedError) for any other value; a
    constructed query was given [None] for both; and a construction given
    a value other than [None] for either raises, with
    [NotImplementedError] once the ancestor and the filters, which are
    validated first, have been accepted. *)
Theorem C7_orders_default_options (a : QueryArgs) :
  (∀ v, (v = VNone → Query__validate_orders v = Ok VNone)
        ∧ (v ≠ VNone → Query__validate_orders v = Raise NotImplementedError))
  ∧ (∀ v, (v = VNone → Query__validate_default_options v = Ok VNone)
          ∧ (v ≠ VNone →
             Query__validate_default_options v = Raise NotImplementedError))
  ∧ (∀ q, Query___init__ km a = Ok q →
       orders a = VNone ∧ default_options a = VNone
       ∧ _orders q = VNone ∧ _default_options q = VNone)
  ∧ (orders a ≠ VNone ∨ default_options a ≠ VNone →
       ∃ e, Query___init__ km a = Raise e
            ∧ (is_Ok (Query__validate_ancestor (ancestor a) (app a) (namespace a)) →
               is_Ok (Query__validate_filters (filters a)) →
               e = NotImplementedError ∧ is_not_supported e = true)).
Proof.
  assert (∀ v, (v = VNone → Query__validate_orders v = Ok VNone)
        ∧ (v ≠ VNone → Query__validate_orders v = Raise NotImplementedError)) as Ho.
  { intros v. unfold Query__validate_orders. destruct v; split; done. }
  assert (∀ v, (v = VNone → Query__validate_default_options v = Ok VNone)
        ∧ (v ≠ VNone →
           Query__validate_default_options v = Raise NotImplementedError)) as Hd.
  { intros v. unfold Query__validate_default_options. destruct v; split; done. }
  split; [done|]. split; [done|]. split.
  - intros q (_ & _ & Hqo & Hqd & _)%Query___init___Ok.
    destruct (is_None (orders a)) eqn:Heo;
      [apply is_None_true in Heo
      |apply is_None_false in Heo; by rewrite (proj2 (Ho _) Heo) in Hqo].
    destruct (is_None (default_options a)) eqn:Hed;
      [apply is_None_true in Hed
      |apply is_None_false in Hed; by rewrite (proj2 (Hd _) Hed) in Hqd].
    rewrite (proj1 (Ho _) Heo) in Hqo. rewrite (proj1 (Hd _) Hed) in Hqd.
    injection Hqo as <-. injection Hqd as <-. done.
  - intros Hne. unfold Query___init__.
    destruct (Query__validate_ancestor _ _ _) as [v|e]; simpl;
      [|exists e; split; [done|by intros [? [=]]]].
    destruct (Query__validate_filters _) as [f|e]; simpl;
      [|exists e; split; [done|by intros _ [? [=]]]].
    exists NotImplementedError. split; [|done].
    destruct (is_None (orders a)) eqn:Heo.
    + apply is_None_true in Heo. rewrite (proj1 (Ho _) Heo). simpl.
      destruct Hne as [?|Hed]; [done|]. by rewrite (proj2 (Hd _) Hed).
    + apply is_None_false in Heo. by rewrite (proj2 (Ho _) Heo).
Qed.

(** *** Projection and grouping *)

Lemma to_property_names_loop_spec (properties : list Value) (fixed : list string) :
  to_property_names_loop properties fixed =
    match mapM property_name properties with
    | Some names => Ok (fixed ++ names)%list
    | None => Raise TypeError
    end.
Proof.
  revert fixed. induction properties as [|prop rest IH]; intros fixed.
  - simpl. by rewrite app_nil_r.
  - destruct prop as [|[]| | | | | | | |]; try done; cbn; rewrite IH;
      destruct (mapM property_name rest); cbn; by rewrite <- ?app_assoc.
Qed.

Lemma isinstance_list_tuple (v : Value) :
  isinstance v [c_tuple; c_list] = true →
  isinstance v [c_list; c_tuple] = true ∧ ∃ items, v = VList items ∨ v = VTuple items.
Proof.
  intros H. destruct v as [|[]| | | | | | |[]|]; try by by_class H.
  all: split; [done|eauto].
Qed.

Lemma mapM_property_name_None (items : list Value) (x : Value) :
  x ∈ items → property_name x = None → mapM property_name items = None.
Proof.
  intros Hx Hn. apply eq_None_not_Some. intros Hs%mapM_is_Some.
  rewrite Forall_forall in Hs. specialize (Hs x Hx). simpl in Hs.
  rewrite Hn in Hs. by destruct Hs.
Qed.

Lemma check_known (kind : option string) (modelclass : ModelClass)
    (names : list string) :
  kind ≫= (km !!.) = Some modelclass →
  registered km kind names ∧ indexable km kind names ↔
    forallb (λ name, bool_decide (name ∈ properties_for modelclass)
                     && is_indexable modelclass name) names = true.
Proof.
  intros Hk. unfold registered, indexable. rewrite forallb_forall. split.
  - intros [Hr Hi] name Hin%list_elem_of_In. apply andb_true_intro. split.
    + apply bool_decide_eq_true. eauto.
    + eauto.
  - intros H. split; intros mc Hmc name Hin%list_elem_of_In;
      rewrite Hk in Hmc; injection Hmc as <-;
      specialize (H name Hin); apply andb_true_iff in H as [H1 H2]; [|done].
    by apply bool_decide_eq_true in H1.
Qed.

Lemma registered_unknown (kind : option string) (names : list string) :
  kind ≫= (km !!.) = None → registered km kind names.
Proof. intros Hk mc Hmc. by rewrite Hk in Hmc. Qed.

Lemma indexable_unknown (kind : option string) (names : list string) :
  kind ≫= (km !!.) = None → indexable km kind names.
Proof. intros Hk mc Hmc. by rewrite Hk in Hmc. Qed.

(** The validator of [projection], case by case. *)
Lemma validate_projection_spec (v : Value) (kind : option string) :
  Query__validate_projection km v kind =
    if is_None v then Ok VNone
    else if negb (truthy v) then Raise TypeError
    else if negb (isinstance v [c_tuple; c_list]) then Raise TypeError
    else match mapM property_name (items_of v) with
         | None => Raise TypeError
         | Some names =>
             match kind ≫= (km !!.) with
             | Some modelclass =>
                 if forallb (λ name, bool_decide (name ∈ properties_for modelclass)
                                     && is_indexable modelclass name) names
                 then Ok (VTuple (items_of v))
                 else Raise InvalidArgument
             | None => Ok (VTuple (items_of v))
             end
         end.
Proof.
  unfold Query__validate_projection.
  destruct (is_None v); [done|]. destruct (truthy v); [|done].
  destruct (isinstance v [c_tuple; c_list]) eqn:Hi; [|done].
  destruct (isinstance_list_tuple v Hi) as [Hi' _].
  unfold Query__to_property_names. rewrite Hi'.
  cbn [negb mbind result_bind].
  rewrite to_property_names_loop_spec.
  destruct (mapM property_name (items_of v)) as [names|]; [|done]. simpl.
  unfold Query__check_properties, Model__check_properties.
  destruct (kind ≫= (km !!.)) as [mc|]; [|done].
  by destruct (forallb _ names).
Qed.

(** [group_by] goes through the same validation as [projection]. *)
Lemma validate_group_by_projection (v : Value) (kind : option string) :
  Query__validate_group_by km v kind = Query__validate_projection km v kind.
Proof. reflexivity. Qed.

(** C8. [projection] and [group_by] are validated alike.  [None] is kept.
    A value other than [None] that is empty, or that is not a list or a
    tuple, raises ([TypeError]); so does a list or tuple with an element
    that is neither a [str] nor a property descriptor.  Otherwise the
    elements are turned into names (a descriptor into its name), the names
    are checked against the registered property set of the kind when the
    registry knows the kind, a name outside it raising InvalidArgument (as
    does a name the registry does not mark indexable), and the accepted
    elements are stored as a tuple.  A constructed query
    stores what the two validators return, and a construction fails when
    either of them raises. *)
Theorem C8_projection_group_by (a : QueryArgs) (v : Value) (kind_ : option string) :
  Query__validate_group_by km v kind_ = Query__validate_projection km v kind_
  ∧ (v = VNone → Query__validate_projection km v kind_ = Ok VNone)
  ∧ (v ≠ VNone → truthy v = false ∨ isinstance v [c_tuple; c_list] = false →
       Query__validate_projection km v kind_ = Raise TypeError)
  ∧ (v ≠ VNone → truthy v = true → isinstance v [c_tuple; c_list] = true →
       (∀ x, x ∈ items_of v → property_name x = None →
          Query__validate_projection km v kind_ = Raise TypeError)
       ∧ (∀ names, mapM property_name (items_of v) = Some names →
            (registered km kind_ names → indexable km kind_ names →
               Query__validate_projection km v kind_ = Ok (VTuple (items_of v)))
            ∧ (¬ registered km kind_ names →
               Query__validate_projection km v kind_ = Raise InvalidArgument)
            ∧ (¬ indexable km kind_ names →
               Query__validate_projection km v kind_ = Raise InvalidArgument)))
  ∧ (∀ r, Query__validate_projection km v kind_ = Ok r →
       (v = VNone ∧ r = VNone)
       ∨ (v ≠ VNone ∧ (∃ items, v = VList items ∨ v = VTuple items)
          ∧ items_of v ≠ [] ∧ r = VTuple (items_of v)
          ∧ ∃ names, mapM property_name (items_of v) = Some names
                     ∧ registered km kind_ names ∧ indexable km kind_ names))
  ∧ (∀ q, Query___init__ km a = Ok q →
       Query__validate_projection km (projection a) (_kind q) = Ok (_projection q)
       ∧ Query__validate_group_by km (group_by a) (_kind q) = Ok (_group_by q))
  ∧ (∀ e, Query__validate_projection km (projection a) (kind a) = Raise e
          ∨ Query__validate_group_by km (group_by a) (kind a) = Raise e →
       ∃ e', Query___init__ km a = Raise e').
Proof.
  split; [done|]. rewrite validate_projection_spec.
  split; [by intros ->|]. split; [|split; [|split; [|split]]].
  - intros Hn%is_None_false [Ht|Hi]; rewrite Hn.
    + by rewrite Ht.
    + rewrite Hi. by destruct (truthy v).
  - intros Hn%is_None_false Ht Hi. rewrite Hn, Ht, Hi. simpl. split.
    + intros x Hx Hnone. by rewrite (mapM_property_name_None _ x Hx Hnone).
    + intros names ->.
      destruct (kind_ ≫= (km !!.)) as [mc|] eqn:Hk.
      * pose proof (check_known kind_ mc names Hk) as Hck.
        destruct (forallb _ names).
        -- destruct (proj2 Hck eq_refl) as [Hreg Hidx].
           split; [done|]. split; by intros [].
        -- split; [|done]. intros Hreg Hidx.
           discriminate (proj1 Hck (conj Hreg Hidx)).
      * split; [done|]. split; intros [].
        -- by apply registered_unknown.
        -- by apply indexable_unknown.
  - intros r. destruct (is_None v) eqn:Hn.
    { intros [= <-]. apply is_None_true in Hn. auto. }
    destruct (truthy v) eqn:Ht; cbn [negb]; [|done].
    destruct (isinstance v [c_tuple; c_list]) eqn:Hi; cbn [negb]; [|done].
    destruct (mapM property_name (items_of v)) as [names|] eqn:Hm; [|done].
    intros Hr. right. apply is_None_false in Hn.
    destruct (isinstance_list_tuple v Hi) as [_ [items Hv]].
    assert (items_of v ≠ []) as Hne.
    { destruct Hv as [-> | ->]; simpl in *; by case_bool_decide. }
    assert (r = VTuple (items_of v)
            ∧ registered km kind_ names ∧ indexable km kind_ names)
      as (-> & Hreg & Hidx).
    { destruct (kind_ ≫= (km !!.)) as [mc|] eqn:Hk.
      - destruct (forallb _ names) eqn:Hf; [|discriminate].
        injection Hr as <-. split; [done|]. by apply (check_known kind_ mc).
      - injection Hr as <-. split; [done|].
        split; [by apply registered_unknown|by apply indexable_unknown]. }
    eauto 10.
  - intros q (_ & _ & _ & _ & Hp & Hg & -> & _)%Query___init___Ok. done.
  - intros e He. destruct (Query___init___total a) as [[q Hq]|]; [|done].
    apply Query___init___Ok in Hq as (_ & _ & _ & _ & Hp & Hg & _).
    destruct He as [He|He]; congruence.
Qed.

End Construction.

(** ** The claims on the sample data *)

Lemma pet_query_constructed : Query___init__ pet_registry pet_args = Ok pet_query.
Proof. vm_compute. reflexivity. Qed.

Lemma C2_ancestor_key_witness :
  Key_id pet_key ≠ None
  ∧ Query___init__ pet_registry incomplete_args = Raise ValueError
  ∧ ∃ e, Query___init__ pet_registry mismatch_args = Raise e
         ∧ is_invalid_argument e = true.
Proof.
  split; [|split].
  - destruct (C2_ancestor_key pet_registry pet_args pet_key eq_refl) as (H & _).
    destruct (H pet_query) as (Hid & _); [vm_compute; reflexivity|exact Hid].
  - destruct (C2_ancestor_key pet_registry incomplete_args incomplete_key eq_refl)
      as (_ & H & _).
    apply H. reflexivity.
  - destruct (C2_ancestor_key pet_registry mismatch_args pet_key eq_refl)
      as (_ & _ & _ & H).
    destruct H as (e & He & Hinv & _).
    + left. exists "other". split; [reflexivity|discriminate].
    + exists e. exact (conj He Hinv).
Defined.

Lemma C5_namespace_default_witness : _namespace pet_query = Some "ns".
Proof.
  destruct (C5_namespace_default pet_registry pet_args pet_query) as (H & _).
  - vm_compute. reflexivity.
  - apply (H pet_key); reflexivity.
Defined.

Lemma C6_filters_witness :
  _filters pet_query = VNode FilterNode 0
  ∧ ∃ e, Query___init__ pet_registry (with_filters pet_args (VInt 5)) = Raise e
         ∧ is_invalid_argument e = true.
Proof.
  split.
  - destruct (C6_filters pet_registry pet_args) as (_ & H & _).
    destruct (H pet_query) as (_ & Hf); [vm_compute; reflexivity|exact Hf].
  - destruct (C6_filters pet_registry (with_filters pet_args (VInt 5)))
      as (_ & _ & H & _).
    destruct H as (e & He & Hinv & _); [discriminate|reflexivity|].
    exists e. exact (conj He Hinv).
Defined.

Lemma C7_orders_default_options_witness :
  ∃ e, Query___init__ pet_registry orders_args = Raise e
       ∧ e = NotImplementedError.
Proof.
  destruct (C7_orders_default_options pet_registry orders_args) as (_ & _ & _ & H).
  destruct H as (e & He & Hns); [left; discriminate|].
  exists e. split; [exact He|].
  apply Hns; eexists; vm_compute; reflexivity.
Defined.

Lemma C8_projection_group_by_witness :
  Query__validate_projection pet_registry
    (VList [VStr "species"; VProperty (mkProperty "name")]) (Some "Pet")
    = Ok (VTuple [VStr "species"; VProperty (mkProperty "name")])
  ∧ Query__validate_projection pet_registry (VList [VStr "colour"]) (Some "Pet")
    = Raise InvalidArgument
  ∧ Query__validate_projection pet_registry (VList [VStr "notes"]) (Some "Pet")
    = Raise InvalidArgument
  ∧ Query__validate_projection pet_registry (VList []) (Some "Pet")
    = Raise TypeError.
Proof.
  split; [|split; [|split]].
  - destruct (C8_projection_group_by pet_registry pet_args
                (VList [VStr "species"; VProperty (mkProperty "name")])
                (Some "Pet")) as (_ & _ & _ & H & _).
    destruct H as (_ & H); [discriminate|reflexivity|reflexivity|].
    destruct (H ["species"; "name"] eq_refl) as (Hok & _).
    apply Hok; intros mc [= <-] name Hin;
      apply list_elem_of_In in Hin; simpl in Hin;
      destruct Hin as [<-|[<-|[]]]; vm_compute; reflexivity.
  - destruct (C8_projection_group_by pet_registry pet_args
                (VList [VStr "colour"]) (Some "Pet")) as (_ & _ & _ & H & _).
    destruct H as (_ & H); [discriminate|reflexivity|reflexivity|].
    destruct (H ["colour"] eq_refl) as (_ & Hbad & _).
    apply Hbad. intros Hreg.
    specialize (Hreg pet_model eq_refl "colour").
    assert ("colour" ∈ ["colour"]) as Hin by (apply list_elem_of_In; left; reflexivity).
    specialize (Hreg Hin). vm_compute in Hreg. discriminate Hreg.
  - destruct (C8_projection_group_by pet_registry pet_args
                (VList [VStr "notes"]) (Some "Pet")) as (_ & _ & _ & H & _).
    destruct H as (_ & H); [discriminate|reflexivity|reflexivity|].
    destruct (H ["notes"] eq_refl) as (_ & _ & Hbad).
    apply Hbad. intros Hidx.
    specialize (Hidx pet_model eq_refl "notes").
    assert ("notes" ∈ ["notes"]) as Hin by (apply list_elem_of_In; left; reflexivity).
    specialize (Hidx Hin). vm_compute in Hidx. discriminate Hidx.
  - destruct (C8_projection_group_by pet_registry pet_args (VList []) (Some "Pet"))
      as (_ & _ & H & _).
    apply H; [discriminate|left; reflexivity].
Defined.

(** ** The filter expression tree *)

(** C9 (as the code has it).  No node can be constructed: calling [AND]
    (that is, [ConjunctionNode]), [FalseNode] or any other node class, on
    any arguments, raises [NotImplementedError]; in particular the
    conjunction of a node with a [FalseNode], or of two conjunctions, is
    not a node at all. *)
Theorem C9_nodes_not_implemented (cls : NodeClass) (oid : nat) (args : Args)
    (kwargs : Kwargs) :
  node_call cls oid args kwargs = Raise NotImplementedError
  ∧ node_call AND oid args kwargs = Raise NotImplementedError
  ∧ node_call FalseNode oid args kwargs = Raise NotImplementedError
  ∧ ∀ r, node_call AND oid args kwargs ≠ Ok r.
Proof. by destruct cls. Qed.

(** C9 as stated fails: the conjunction of a [FilterNode] with a
    [FalseNode] does not yield a [FalseNode]. *)
Lemma C9_and_false_counterexample :
  ¬ ∃ r, node_call AND 2 [VNode FilterNode 0; VNode FalseNode 1] [] = Ok r
         ∧ isinstance r [c_node FalseNode] = true.
Proof. intros (r & Hr & _). discriminate Hr. Qed.

(** * Further properties *)

(** ** Parameters: keys and comparison *)

Lemma prim_eq_sym (a b : Prim) : prim_eq a b = prim_eq b a.
Proof.
  apply Bool.eq_iff_eq_true. rewrite !prim_eq_slot. split; congruence.
Qed.

(** X1. A parameter can be rebuilt from its key: the [key] property of any
    parameter is accepted by [Parameter], and gives the parameter back. *)
Theorem Parameter_key_roundtrip (p : ParameterObj) :
  Parameter___init__ (Parameter_key p) = Ok p.
Proof. by destruct p as [[]]. Qed.

Section Comparison.

Context {M : ModelEq}.

Lemma Parameter_op_eq_Parameter (p q : ParameterObj) :
  Parameter_op_eq p (VParameter q) = Ok (prim_eq (_key p) (_key q)).
Proof. reflexivity. Qed.

(** X2. [==] between parameters is an equivalence: it never raises (nor
    does [!=], which answers the opposite), every parameter equals itself,
    the two orders of the operands agree, and equality is transitive. *)
Theorem Parameter_eq_equivalence (p1 p2 p3 : ParameterObj) :
  (∃ b, Parameter_op_eq p1 (VParameter p2) = Ok b
        ∧ ParameterizedThing___ne__ p1 (VParameter p2) = Ok (negb b))
  ∧ (∀ e, Parameter_op_eq p1 (VParameter p2) ≠ Raise e)
  ∧ Parameter_op_eq p1 (VParameter p1) = Ok true
  ∧ Parameter_op_eq p1 (VParameter p2) = Parameter_op_eq p2 (VParameter p1)
  ∧ (Parameter_op_eq p1 (VParameter p2) = Ok true →
     Parameter_op_eq p2 (VParameter p3) = Ok true →
     Parameter_op_eq p1 (VParameter p3) = Ok true).
Proof.
  unfold ParameterizedThing___ne__. rewrite !Parameter_op_eq_Parameter.
  split; [by eexists|]. split; [done|]. split; [|split].
  - by rewrite prim_eq_refl.
  - by rewrite prim_eq_sym.
  - intros [= H12] [= H23]. f_equal.
    apply prim_eq_slot. apply prim_eq_slot in H12, H23. congruence.
Qed.

(** X3. A parameter never equals [None], an [int], [bool], [str] or
    [bytes], a list, a tuple, a node or a plain object: for each of them
    [Parameter.__eq__] answers [NotImplemented] and so does the reflected
    method, so [==] is [False] and [!=] is [True].  (For a [Key] or a
    [Property] the answer is that of [model.py].)  Against a
    [ParameterizedFunction] both operators raise [NotImplementedError],
    through the inherited [ParameterizedThing.__eq__]. *)
Theorem Parameter_eq_other (p : ParameterObj) (other : Value) :
  (isinstance other [c_ParameterizedThing; c_Key; c_Property] = false →
     Parameter___eq__ p other = NotImplemented
     ∧ Parameter_op_eq p other = Ok false
     ∧ ParameterizedThing___ne__ p other = Ok true)
  ∧ (∀ f, other = VParameterizedFunction f →
       Parameter_op_eq p other = Raise NotImplementedError
       ∧ ParameterizedThing___ne__ p other = Raise NotImplementedError).
Proof.
  split.
  - intros H. by destruct other as [|[]| | | | | | |[]|]; try by by_class H.
  - by intros f ->.
Qed.

(** X4. Parameters that compare equal resolve alike: the same result and
    the same [used] dict, whatever the bindings. *)
Theorem Parameter_resolve_eq (p1 p2 : ParameterObj) (bindings used : Dict) :
  Parameter_op_eq p1 (VParameter p2) = Ok true →
  Parameter_resolve p1 bindings used = Parameter_resolve p2 bindings used.
Proof.
  rewrite Parameter_op_eq_Parameter. intros [= H%prim_eq_slot].
  by rewrite !Parameter_resolve_unfold, H.
Qed.

End Comparison.

Lemma Parameter_eq_equivalence_witness :
  @Parameter_op_eq plain_model_eq (mkParameter (PBool true))
    (VParameter (mkParameter (PBool true))) = Ok true.
Proof.
  destruct (@Parameter_eq_equivalence plain_model_eq (mkParameter (PBool true))
              (mkParameter (PInt 1)) (mkParameter (PBool true)))
    as (_ & _ & _ & _ & H).
  apply H; reflexivity.
Defined.

Lemma Parameter_eq_other_witness :
  @Parameter_op_eq plain_model_eq (mkParameter (PInt 1)) (VInt 1) = Ok false
  ∧ @ParameterizedThing___ne__ plain_model_eq (mkParameter (PInt 1)) (VInt 1)
    = Ok true.
Proof.
  destruct (@Parameter_eq_other plain_model_eq (mkParameter (PInt 1)) (VInt 1))
    as (H & _).
  destruct H as (_ & Heq & Hne); [reflexivity|]. exact (conj Heq Hne).
Defined.

Lemma Parameter_resolve_eq_witness :
  Parameter_resolve (mkParameter (PBool true)) {[DInt 1 := VStr "x"]} ∅
  = Parameter_resolve (mkParameter (PInt 1)) {[DInt 1 := VStr "x"]} ∅.
Proof.
  apply (@Parameter_resolve_eq plain_model_eq (mkParameter (PBool true))
           (mkParameter (PInt 1))).
  reflexivity.
Defined.

(** ** Parameters: resolution *)

(** X5. Resolving a parameter again changes nothing: on the [used] dict a
    first call leaves, a second call has the same result and leaves the
    same dict. *)
Theorem Parameter_resolve_twice (p : ParameterObj) (bindings used : Dict) :
  Parameter_resolve p bindings (snd (Parameter_resolve p bindings used))
  = Parameter_resolve p bindings used.
Proof.
  rewrite !Parameter_resolve_unfold.
  destruct (bindings !! slot (_key p)); simpl; [|done].
  by rewrite insert_insert_eq.
Qed.

(** X6. The order in which two parameters are resolved does not matter:
    the result of a call does not depend on [used], and the two orders
    leave the same [used] dict. *)
Theorem Parameter_resolve_commute (p1 p2 : ParameterObj) (bindings used used' : Dict) :
  fst (Parameter_resolve p1 bindings used) = fst (Parameter_resolve p1 bindings used')
  ∧ snd (Parameter_resolve p2 bindings (snd (Parameter_resolve p1 bindings used)))
    = snd (Parameter_resolve p1 bindings (snd (Parameter_resolve p2 bindings used))).
Proof.
  rewrite !Parameter_resolve_unfold. split.
  - by destruct (bindings !! slot (_key p1)).
  - destruct (bindings !! slot (_key p1)), (bindings !! slot (_key p2));
      simpl; try done.
    destruct (decide (slot (_key p1) = slot (_key p2))) as [->|Hne]; [done|].
    by apply insert_insert_ne.
Qed.

(** X7. What a call does to [used]: no key is dropped, at most the
    parameter's key is added, a value is kept or becomes [True], and keys
    of [used] stay among the keys of [bindings] when they were. *)
Theorem Parameter_resolve_used (p : ParameterObj) (bindings used : Dict) :
  dom used ⊆ dom (snd (Parameter_resolve p bindings used))
  ∧ dom (snd (Parameter_resolve p bindings used)) ⊆ dom used ∪ {[slot (_key p)]}
  ∧ (∀ k v, snd (Parameter_resolve p bindings used) !! k = Some v →
       used !! k = Some v ∨ (k = slot (_key p) ∧ v = VTrue))
  ∧ (dom used ⊆ dom bindings →
       dom (snd (Parameter_resolve p bindings used)) ⊆ dom bindings).
Proof.
  rewrite Parameter_resolve_unfold.
  destruct (bindings !! slot (_key p)) as [value|] eqn:E; simpl.
  - rewrite dom_insert_L. split; [set_solver|]. split; [set_solver|]. split.
    + intros k v. rewrite lookup_insert. case_decide; [|auto].
      intros [= <-]. auto.
    + intros Hsub. apply (elem_of_dom_2 bindings) in E. set_solver.
  - split; [done|]. split; [set_solver|]. auto.
Qed.

Lemma Parameter_resolve_used_witness :
  dom (snd (Parameter_resolve (mkParameter (PStr "a"))
              {[DStr "a" := VInt 1; DStr "b" := VInt 2]} {[DStr "b" := VTrue]}))
  ⊆ dom ({[DStr "a" := VInt 1; DStr "b" := VInt 2]} : Dict).
Proof.
  destruct (Parameter_resolve_used (mkParameter (PStr "a"))
              {[DStr "a" := VInt 1; DStr "b" := VInt 2]} {[DStr "b" := VTrue]})
    as (_ & _ & _ & H).
  apply H. apply (bool_decide_unpack _). vm_compute. exact I.
Defined.

(** ** Query: the ancestor *)

(** X8. The ancestors [Query] takes besides a key: [None] and any
    [Parameter] pass whatever [app] and [namespace] are; a
    [ParameterizedFunction] passes exactly when its [func] is ["key"], and
    raises [TypeError] otherwise; every value that is neither [None], a
    parameterized thing nor a key raises [TypeError].  An accepted
    ancestor is returned as it was given. *)
Theorem validate_ancestor_kinds (app namespace : option string) :
  Query__validate_ancestor VNone app namespace = Ok VNone
  ∧ (∀ p, Query__validate_ancestor (VParameter p) app namespace = Ok (VParameter p))
  ∧ (∀ f, Query__validate_ancestor (VParameterizedFunction f) app namespace =
          if String.eqb (func f) "key" then Ok (VParameterizedFunction f)
          else Raise TypeError)
  ∧ (∀ v, v ≠ VNone → isinstance v [c_ParameterizedThing; c_Key] = false →
       Query__validate_ancestor v app namespace = Raise TypeError)
  ∧ (∀ v r, Query__validate_ancestor v app namespace = Ok r →
       r = v ∧ (v = VNone ∨ isinstance v [c_ParameterizedThing; c_Key] = true)).
Proof.
  split; [done|]. split; [done|]. split; [|split].
  - intros f. unfold Query__validate_ancestor.
    change (isinstance (VParameterizedFunction f) [c_ParameterizedThing]) with true.
    cbn [is_None]. by destruct (String.eqb (func f) "key").
  - intros v Hn H. by destruct v as [|[]| | | | | | |[]|]; try by by_class H.
  - intros v r Hr. split; [by eapply validate_ancestor_Ok|].
    destruct v as [|[]| | | | | | |[]|]; try done; auto.
Qed.

Lemma validate_ancestor_kinds_witness :
  Query__validate_ancestor (VStr "Pet") (Some "app") None = Raise TypeError.
Proof.
  destruct (validate_ancestor_kinds (Some "app") None) as (_ & _ & _ & H & _).
  apply H; [discriminate|reflexivity].
Defined.

(** ** Query: construction as a whole *)

(** X9. The validators run in the order of the assignments of
    [__init__], and the first one that raises decides the exception of
    the construction: ancestor, filters, orders, default options,
    projection, grouping. *)
Theorem Query_init_validation_order (km : gmap string ModelClass) (a : QueryArgs) :
  (∀ e, Query__validate_ancestor (ancestor a) (app a) (namespace a) = Raise e →
     Query___init__ km a = Raise e)
  ∧ (is_Ok (Query__validate_ancestor (ancestor a) (app a) (namespace a)) →
     (∀ e, Query__validate_filters (filters a) = Raise e →
        Query___init__ km a = Raise e)
     ∧ (is_Ok (Query__validate_filters (filters a)) →
        (orders a ≠ VNone → Query___init__ km a = Raise NotImplementedError)
        ∧ (orders a = VNone →
           (default_options a ≠ VNone →
              Query___init__ km a = Raise NotImplementedError)
           ∧ (default_options a = VNone →
              (∀ e, Query__validate_projection km (projection a) (kind a) = Raise e →
                 Query___init__ km a = Raise e)
              ∧ (is_Ok (Query__validate_projection km (projection a) (kind a)) →
                 ∀ e, Query__validate_group_by km (group_by a) (kind a) = Raise e →
                   Query___init__ km a = Raise e))))).
Proof.
  unfold Query___init__.
  split; [by intros e ->|]. intros [? ->].
  split; [by intros e ->|]. intros [? ->].
  split; [intros Ho%is_None_false|intros ->].
  { unfold Query__validate_orders. by rewrite Ho. }
  split; [intros Hd%is_None_false|intros ->].
  { unfold Query__validate_default_options. by rewrite Hd. }
  split; [by intros e ->|]. by intros [? ->] e ->.
Qed.

Lemma Query_init_validation_order_witness :
  Query___init__ pet_registry
    {| kind := None; ancestor := VKey incomplete_key; filters := VInt 5;
       orders := VObject 1; app := None; namespace := None;
       default_options := VObject 2; projection := VList []; group_by := VNone |}
  = Raise ValueError.
Proof.
  destruct (Query_init_validation_order pet_registry
    {| kind := None; ancestor := VKey incomplete_key; filters := VInt 5;
       orders := VObject 1; app := None; namespace := None;
       default_options := VObject 2; projection := VList []; group_by := VNone |})
    as (H & _).
  apply H. reflexivity.
Defined.

(** X10. A constructed query holds [kind], [app] and the ancestor exactly
    as given, and the namespace as given unless it was [None] with a key
    for ancestor. *)
Theorem Query_init_stores (km : gmap string ModelClass) (a : QueryArgs) (q : QueryObj) :
  Query___init__ km a = Ok q →
  _kind q = kind a ∧ _app q = app a ∧ _ancestor q = ancestor a
  ∧ ((∀ k, ancestor a ≠ VKey k) → _namespace q = namespace a)
  ∧ (_namespace q = None → namespace a = None).
Proof.
  intros (Ha%validate_ancestor_Ok & _ & _ & _ & _ & _ & Hk & Happ & Hn)
    %Query___init___Ok.
  repeat split; try done.
  - intros Hnk. rewrite Hn. unfold Query__validate_namespace.
    destruct (namespace a); [done|]. destruct (ancestor a); try done.
    by destruct (Hnk k).
  - rewrite Hn. unfold Query__validate_namespace.
    by destruct (namespace a).
Qed.

Lemma Query_init_stores_witness : _kind pet_query = Some "Pet".
Proof.
  destruct (Query_init_stores pet_registry pet_args pet_query) as (H & _).
  - vm_compute. reflexivity.
  - exact H.
Defined.

(** X11. Without ancestor, orders, default options, projection and
    grouping, a construction with filters that are [None] or a node
    always succeeds, whatever [kind], [app] and [namespace] are and
    whatever the registry holds; [Query()] is one case. *)
Theorem Query_init_plain (km : gmap string ModelClass) (kind_ app_ namespace_ : option string)
    (f : Value) :
  f = VNone ∨ isinstance f [c_node Node] = true →
  Query___init__ km
    {| kind := kind_; ancestor := VNone; filters := f; orders := VNone;
       app := app_; namespace := namespace_; default_options := VNone;
       projection := VNone; group_by := VNone |}
  = Ok {| _kind := kind_; _ancestor := VNone; _filters := f; _orders := VNone;
          _app := app_; _namespace := namespace_; _default_options := VNone;
          _projection := VNone; _group_by := VNone |}.
Proof.
  intros Hf. apply Query___init___Ok. simpl.
  repeat split; try done.
  - rewrite validate_filters_spec.
    by destruct Hf as [-> | ->]; [|rewrite orb_true_r].
  - by destruct namespace_.
Qed.

Lemma Query_init_plain_witness :
  Query___init__ ∅ defaults
  = Ok {| _kind := None; _ancestor := VNone; _filters := VNone; _orders := VNone;
          _app := None; _namespace := None; _default_options := VNone;
          _projection := VNone; _group_by := VNone |}.
Proof. apply (Query_init_plain ∅ None None None VNone). left. reflexivity. Defined.

(** ** Query: property names, projection and grouping *)

Lemma to_property_names_list (items : list Value) :
  Query__to_property_names (VList items) =
    match mapM property_name items with
    | Some names => Ok names
    | None => Raise TypeError
    end.
Proof.
  unfold Query__to_property_names.
  change (isinstance (VList items) [c_list; c_tuple]) with true.
  cbn [negb items_of]. by rewrite to_property_names_loop_spec.
Qed.

Lemma mapM_property_name_app (l1 l2 : list Value) (n1 n2 : list string) :
  mapM property_name l1 = Some n1 → mapM property_name l2 = Some n2 →
  mapM property_name (l1 ++ l2) = Some (n1 ++ n2)%list.
Proof. rewrite !mapM_Some. apply Forall2_app. Qed.

(** X12. [_to_property_names] on a list or a tuple: both are read alike;
    the names come out one per element, in the order of the elements (a
    [str] as it is, a descriptor as its [_name]); the call raises, and
    then [TypeError], exactly when some element is neither; and the names
    of a concatenation are the names of its parts, concatenated. *)
Theorem to_property_names_in_order (items : list Value) :
  Query__to_property_names (VTuple items) = Query__to_property_names (VList items)
  ∧ (∀ names, Query__to_property_names (VList items) = Ok names →
       length names = length items
       ∧ Forall2 (λ item name, property_name item = Some name) items names)
  ∧ (Query__to_property_names (VList items) = Raise TypeError
       ↔ ∃ item, item ∈ items ∧ property_name item = None)
  ∧ (∀ e, Query__to_property_names (VList items) = Raise e → e = TypeError)
  ∧ (∀ items' names names',
       Query__to_property_names (VList items) = Ok names →
       Query__to_property_names (VList items') = Ok names' →
       Query__to_property_names (VList (items ++ items'))
         = Ok (names ++ names')%list).
Proof.
  split; [done|]. rewrite to_property_names_list.
  split; [|split; [|split]].
  - intros names. destruct (mapM property_name items) as [ns|] eqn:Hm; [|done].
    intros [= <-]. apply mapM_Some in Hm. split; [|done].
    symmetry. by eapply Forall2_length.
  - destruct (mapM property_name items) as [ns|] eqn:Hm.
    + split; [done|]. intros (item & Hin & Hnone).
      by rewrite (mapM_property_name_None _ _ Hin Hnone) in Hm.
    + split; [|done]. intros _. apply mapM_None, Exists_exists in Hm. done.
  - intros e. destruct (mapM property_name items); [done|]. by intros [= <-].
  - intros items' names names'. rewrite !to_property_names_list.
    destruct (mapM property_name items) as [ns|] eqn:Hm; [|done].
    destruct (mapM property_name items') as [ns'|] eqn:Hm'; [|done].
    intros [= <-] [= <-]. by rewrite (mapM_property_name_app _ _ _ _ Hm Hm').
Qed.

Lemma to_property_names_in_order_witness :
  length ["species"; "name"] = length [VStr "species"; VProperty (mkProperty "name")].
Proof.
  destruct (to_property_names_in_order
              [VStr "species"; VProperty (mkProperty "name")]) as (_ & H & _).
  destruct (H ["species"; "name"]) as (Hlen & _); [reflexivity|exact Hlen].
Defined.

(** X13. A bare property name or a bare descriptor, outside any list, is
    wrapped by [_to_property_names] into a one-name list; yet as a
    [projection] or a [group_by] it raises [TypeError]: the validators
    take lists and tuples only. *)
Theorem bare_property_rejected (km : gmap string ModelClass) (v : Value)
    (kind_ : option string) (name : string) :
  isinstance v [c_list; c_tuple] = false →
  property_name v = Some name →
  Query__to_property_names v = Ok [name]
  ∧ Query__validate_projection km v kind_ = Raise TypeError
  ∧ Query__validate_group_by km v kind_ = Raise TypeError.
Proof.
  intros _ Hname. change Query__validate_group_by with Query__validate_projection.
  rewrite validate_projection_spec.
  destruct v as [|[]| | | | | | | |]; try discriminate Hname;
    injection Hname as <-; (split; [done|]).
  - cbn [is_None]. by destruct (truthy _).
  - done.
Qed.

Lemma bare_property_rejected_witness :
  Query__to_property_names (VStr "name") = Ok ["name"]
  ∧ Query__validate_projection pet_registry (VStr "name") (Some "Pet")
    = Raise TypeError.
Proof.
  destruct (bare_property_rejected pet_registry (VStr "name") (Some "Pet") "name")
    as (H1 & H2 & _); [reflexivity|reflexivity|].
  exact (conj H1 H2).
Defined.

Lemma validate_projection_idem (km : gmap string ModelClass) (v r : Value)
    (kind_ : option string) :
  Query__validate_projection km v kind_ = Ok r →
  Query__validate_projection km r kind_ = Ok r.
Proof.
  rewrite validate_projection_spec. destruct (is_None v) eqn:Hn.
  { by intros [= <-]. }
  destruct (truthy v) eqn:Ht; cbn [negb]; [|done].
  destruct (isinstance v [c_tuple; c_list]) eqn:Hi; cbn [negb]; [|done].
  destruct (isinstance_list_tuple v Hi) as [_ [items Hv]].
  assert (items_of v = items ∧ truthy (VTuple items) = true) as [Hitems Ht'].
  { by destruct Hv as [-> | ->]. }
  rewrite Hitems. intros H.
  assert (r = VTuple items) as ->.
  { destruct (mapM property_name items); [|done].
    destruct (kind_ ≫= (km !!.)); [destruct (forallb _ _)|]; congruence. }
  rewrite validate_projection_spec. cbn [is_None]. rewrite Ht'.
  change (isinstance (VTuple items) [c_tuple; c_list]) with true.
  exact H.
Qed.

(** X14. The stored projection is a normal form: a list and the tuple of
    the same elements validate to the same result, and what the validator
    returns validates again to itself (for [group_by] too). *)
Theorem projection_normal_form (km : gmap string ModelClass) (v r : Value)
    (kind_ : option string) :
  (∀ items, Query__validate_projection km (VList items) kind_
            = Query__validate_projection km (VTuple items) kind_)
  ∧ (Query__validate_projection km v kind_ = Ok r →
       Query__validate_projection km r kind_ = Ok r)
  ∧ (Query__validate_group_by km v kind_ = Ok r →
       Query__validate_group_by km r kind_ = Ok r).
Proof.
  split; [|split].
  - intros items. by rewrite !validate_projection_spec.
  - apply validate_projection_idem.
  - change Query__validate_group_by with Query__validate_projection.
    apply validate_projection_idem.
Qed.

Lemma projection_normal_form_witness :
  Query__validate_projection pet_registry (VTuple [VStr "name"]) (Some "Pet")
  = Ok (VTuple [VStr "name"]).
Proof.
  destruct (projection_normal_form pet_registry (VList [VStr "name"])
              (VTuple [VStr "name"]) (Some "Pet")) as (_ & H & _).
  apply H. vm_compute. reflexivity.
Defined.

(** X15. For a kind the registry does not know, and for [kind=None], no
    name is checked: every non-empty list or tuple of property names and
    descriptors is accepted. *)
Theorem projection_unknown_kind (km : gmap string ModelClass) (kind_ : option string)
    (v : Value) (names : list string) :
  kind_ ≫= (km !!.) = None →
  isinstance v [c_tuple; c_list] = true →
  items_of v ≠ [] →
  mapM property_name (items_of v) = Some names →
  Query__validate_projection km v kind_ = Ok (VTuple (items_of v))
  ∧ Query__validate_group_by km v kind_ = Ok (VTuple (items_of v)).
Proof.
  intros Hk Hi Hne Hm.
  change Query__validate_group_by with Query__validate_projection.
  rewrite validate_projection_spec, Hi, Hm, Hk.
  destruct (isinstance_list_tuple v Hi) as [_ [items Hv]].
  assert (is_None v = false ∧ truthy v = true) as [-> ->]; [|done].
  destruct Hv as [-> | ->]; simpl in *; by case_bool_decide.
Qed.

Lemma projection_unknown_kind_witness :
  Query__validate_projection pet_registry (VList [VStr "wings"]) (Some "Bird")
  = Ok (VTuple [VStr "wings"]).
Proof.
  destruct (projection_unknown_kind pet_registry (Some "Bird")
              (VList [VStr "wings"]) ["wings"]) as (H & _);
    [reflexivity|reflexivity|discriminate|reflexivity|exact H].
Defined.

(** ** Query: filters and the life of a query *)

(** X16. An instance of [Node] or of any of its six subclasses is
    accepted as filters, and every value that is neither [None] nor such
    an instance raises [TypeError]. *)
Theorem filters_node_classes (v : Value) :
  (∀ cls oid, v = VNode cls oid → Query__validate_filters v = Ok v)
  ∧ (v ≠ VNone → (∀ cls oid, v ≠ VNode cls oid) →
       Query__validate_filters v = Raise TypeError).
Proof.
  rewrite validate_filters_spec. split.
  - intros cls oid ->. by destruct cls.
  - intros Hn%is_None_false Hnode. rewrite Hn.
    destruct (isinstance v [c_node Node]) eqn:Hi; [|done].
    apply isinstance_Node in Hi as (cls & oid & ->). by destruct (Hnode cls oid).
Qed.

Lemma filters_node_classes_witness :
  Query__validate_filters (VNode PostFilterNode 4) = Ok (VNode PostFilterNode 4)
  ∧ Query__validate_filters (VParameter (mkParameter (PInt 1))) = Raise TypeError.
Proof.
  split.
  - destruct (filters_node_classes (VNode PostFilterNode 4)) as (H & _).
    apply (H PostFilterNode 4%nat). reflexivity.
  - destruct (filters_node_classes (VParameter (mkParameter (PInt 1)))) as (_ & H).
    apply H; discriminate.
Defined.

Lemma validate_namespace_idem (namespace : option string) (ancestor : Value) :
  Query__validate_namespace (Query__validate_namespace namespace ancestor) ancestor
  = Query__validate_namespace namespace ancestor.
Proof.
  unfold Query__validate_namespace.
  destruct namespace; [done|]. destruct ancestor; try done.
  by destruct (Key_namespace k).
Qed.

Lemma validate_ancestor_defaulted (v r : Value) (app namespace : option string) :
  Query__validate_ancestor v app namespace = Ok r →
  Query__validate_ancestor v app (Query__validate_namespace namespace v) = Ok v.
Proof.
  intros H. pose proof (validate_ancestor_Ok _ _ _ _ H) as ->.
  destruct namespace as [n|]; [by destruct v|].
  destruct v as [| | | |k| | | | |]; try done.
  rewrite validate_ancestor_Key in H. rewrite validate_ancestor_Key.
  destruct (negb (truthy_id (Key_id k))); [done|].
  destruct (match app with Some a => _ | None => false end); [done|].
  simpl. destruct (Key_namespace k); [|done]. by rewrite bool_decide_eq_true_2.
Qed.

(** X17. Construction is idempotent: a constructed query, given back as
    arguments field by field (the defaulted namespace included), is
    accepted again, and the query constructed is the same one. *)
Theorem Query_init_idempotent (km : gmap string ModelClass) (a : QueryArgs)
    (q : QueryObj) :
  Query___init__ km a = Ok q → Query___init__ km (as_args q) = Ok q.
Proof.
  intros (Ha & Hf & Ho & Hd & Hp & Hg & Hk & Happ & Hn)%Query___init___Ok.
  apply Query___init___Ok. simpl.
  pose proof (validate_ancestor_Ok _ _ _ _ Ha) as Hanc.
  rewrite Hanc, Happ, Hn, Hk.
  split; [by apply (validate_ancestor_defaulted _ _ _ _ Ha)|].
  split.
  { rewrite validate_filters_spec in Hf.
    destruct (is_None (filters a) || isinstance (filters a) [c_node Node])
      eqn:Hc; [|done].
    injection Hf as <-. by rewrite validate_filters_spec, Hc. }
  split.
  { unfold Query__validate_orders in Ho.
    destruct (orders a); try done. by injection Ho as <-. }
  split.
  { unfold Query__validate_default_options in Hd.
    destruct (default_options a); try done. by injection Hd as <-. }
  change Query__validate_group_by with Query__validate_projection in *.
  split; [by eapply validate_projection_idem|].
  split; [by eapply validate_projection_idem|].
  by rewrite validate_namespace_idem.
Qed.

Lemma Query_init_idempotent_witness :
  Query___init__ pet_registry (as_args pet_query) = Ok pet_query.
Proof.
  apply (Query_init_idempotent pet_registry pet_args pet_query).
  vm_compute. reflexivity.
Defined.
